(** * Conversation creation: [create_new_conversation]

    A shallow embedding of
    [openhands/server/services/conversation_service.py] and the properties
    of the creation flow: the credential gate, write-once metadata, the
    anonymous fallback, the construction of the initial message and the
    treatment of the conversation id.

    The function is a straight line of calls to collaborators (settings
    store, conversation store, experiment manager, conversation manager).
    It is embedded as a program over those calls; a handler gives each call
    its answer, and running a program under a handler yields the outcome,
    the final state of the collaborators and the trace of what was called. *)

From Stdlib Require Import ZArith String Ascii List Bool Lia.
From Stdlib Require Import NArith Sorted.
From stdpp Require Import base option gmap strings list fin_maps.
Import ListNotations.

Local Open Scope string_scope.
Local Open Scope list_scope.

(** ** Python values *)

(** A Python [str] is held as its UTF-8 encoding, one [ascii] per byte.
    [code_points] reads the characters back. A byte that does not start a
    well-formed sequence stands for the lone surrogate U+DC00 + byte, as
    when Python decodes the environment (surrogateescape): overlong forms,
    encoded surrogates and values above U+10FFFF are not well formed. *)
Definition continuation (b : N) : bool := ((0x80 <=? b) && (b <? 0xC0))%N.

Fixpoint code_points (s : string) : list N :=
  match s with
  | EmptyString => []
  | String a rest =>
      let b := N_of_ascii a in
      let escaped := (0xDC00 + b) :: code_points rest in
      if b <? 0x80 then b :: code_points rest
      else
        match rest with
        | EmptyString => escaped
        | String a1 r1 =>
            let b1 := N_of_ascii a1 in
            if (0xC2 <=? b) && (b <? 0xE0) && continuation b1
            then ((b - 0xC0) * 0x40 + (b1 - 0x80)) :: code_points r1
            else
              match r1 with
              | EmptyString => escaped
              | String a2 r2 =>
                  let b2 := N_of_ascii a2 in
                  let c3 :=
                    (b - 0xE0) * 0x1000 + (b1 - 0x80) * 0x40 + (b2 - 0x80) in
                  if (0xE0 <=? b) && (b <? 0xF0)
                     && continuation b1 && continuation b2
                     && (0x800 <=? c3)
                     && negb ((0xD800 <=? c3) && (c3 <? 0xE000))
                  then c3 :: code_points r2
                  else
                    match r2 with
                    | EmptyString => escaped
                    | String a3 r3 =>
                        let b3 := N_of_ascii a3 in
                        let c4 :=
                          (b - 0xF0) * 0x40000 + (b1 - 0x80) * 0x1000
                          + (b2 - 0x80) * 0x40 + (b3 - 0x80) in
                        if (0xF0 <=? b) && (b <? 0xF5)
                           && continuation b1 && continuation b2
                           && continuation b3
                           && (0x10000 <=? c4) && (c4 <? 0x110000)
                        then c4 :: code_points r3
                        else escaped
                    end
              end
        end
  end%N.

(** The characters [str.isspace] takes for whitespace: U+0009..U+000D,
    U+001C..U+0020, U+0085, U+00A0, U+1680, U+2000..U+200A, U+2028, U+2029,
    U+202F, U+205F and U+3000. *)
Definition isspace_char (c : N) : bool :=
  (((0x09 <=? c) && (c <=? 0x0D)) || ((0x1C <=? c) && (c <=? 0x20))
   || (c =? 0x85) || (c =? 0xA0) || (c =? 0x1680)
   || ((0x2000 <=? c) && (c <=? 0x200A))
   || (c =? 0x2028) || (c =? 0x2029) || (c =? 0x202F) || (c =? 0x205F)
   || (c =? 0x3000))%N.

(** Every character is whitespace; so for the empty string. *)
Definition all_space (s : string) : bool :=
  forallb isspace_char (code_points s).

(** [s.isspace()]: every character is whitespace and there is at least one. *)
Definition isspace (s : string) : bool :=
  match s with
  | EmptyString => false
  | String _ _ => all_space s
  end.

(** pydantic's [SecretStr]. *)
Record SecretStr := { get_secret_value : string }.

(** Truth value testing: what [if x], [not x] and [x or y] look at. *)
Class Truthy (A : Type) := truthy : A -> bool.

#[export] Instance truthy_str : Truthy string :=
  fun s => match s with EmptyString => false | String _ _ => true end.
#[export] Instance truthy_list {A} : Truthy (list A) :=
  fun l => match l with [] => false | _ :: _ => true end.
(** [SecretStr] defines [__len__], the length of the secret. *)
#[export] Instance truthy_secret : Truthy SecretStr :=
  fun k => truthy (get_secret_value k).
(** [None] is false; any other value answers for itself. *)
#[export] Instance truthy_optional {A} `{Truthy A} : Truthy (option A) :=
  fun o => match o with None => false | Some x => truthy x end.

(** [x or d] where [x] is [A | None] and [d] is an [A]. *)
Definition or_default {A} `{Truthy A} (x : option A) (d : A) : A :=
  match x with
  | Some v => if truthy v then v else d
  | None => d
  end.

(** [os.environ], read by [os.getenv]. *)
Definition getenv (env : gmap string string) (name : string) : option string :=
  env !! name.

Definition getenv_default (env : gmap string string) (name d : string) : string :=
  match env !! name with
  | Some v => v
  | None => d
  end.

(** [{**a, **b}]: the keys of [b] win. *)
Definition dict_merge {V} (a b : gmap string V) : gmap string V := b ∪ a.

Inductive LogLevel := INFO | WARNING.

(** The [logger] calls of the function, in source order. *)
Inductive LogSite :=
| Creating_conversation
| Loading_settings
| Settings_loaded
| Missing_api_key
| Settings_not_present
| Using_default_settings
| Loading_conversation_store
| Conversation_store_loaded
| New_conversation_ID
| Saving_metadata
| Starting_agent_loop
| Attaching_convo_ID_is_deprecated
| Finished_initializing.

(** ** What the module imports

    The types and helpers the file imports and does not define: they are
    taken as given. *)
Class Externals := {
  (** [PROVIDER_TOKEN_TYPE] *)
  ProviderTokens : Type;
  (** [CUSTOM_SECRETS_TYPE_WITH_JSON_SCHEMA] *)
  CustomSecrets : Type;
  ProviderType : Type;
  ConversationTrigger : Type;
  AgentLoopInfo : Type;
  (** the objects [SettingsStoreImpl.get_instance] and
      [ConversationStoreImpl.get_instance] return *)
  SettingsStore : Type;
  ConversationStore : Type;
  (** what a collaborator raises *)
  ExtErr : Type;
  (** [get_default_conversation_title] *)
  get_default_conversation_title : string -> string;
}.

Section Model.
Context `{Ext : Externals}.

(** The values found in the [__dict__] of a settings object. *)
Inductive PyVal :=
| VNone
| VBool (b : bool)
| VInt (z : Z)
| VStr (s : string)
| VSecretStr (k : SecretStr)
| VProviderTokens (t : ProviderTokens)
| VCustomSecrets (c : CustomSecrets)
| VProviderType (p : ProviderType).

(** An optional value as a Python value. *)
Definition of_opt {A} (inj : A -> PyVal) (o : option A) : PyVal :=
  match o with
  | Some x => inj x
  | None => VNone
  end.

(** Modelled from the spec: the declaration of [Settings] is imported, not
    defined here. The fields are the ones this file names (the spec's
    EffectiveSettings: language, agent type, iteration count, model,
    API key, base URL, confirmation mode, condenser and notification
    flags), each nullable; [settings_other] holds whatever further fields
    the declaration has. *)
Record Settings := {
  language : option string;
  agent : option string;
  max_iterations : option Z;
  llm_model : option string;
  llm_api_key : option SecretStr;
  llm_base_url : option string;
  confirmation_mode : option bool;
  enable_default_condenser : option bool;
  enable_sound_notifications : option bool;
  enable_proactive_conversation_starters : option bool;
  settings_other : gmap string PyVal;
}.

(** [settings.__dict__] *)
Definition settings_dict (s : Settings) : gmap string PyVal :=
  <["language" := of_opt VStr (language s)]>
  (<["agent" := of_opt VStr (agent s)]>
  (<["max_iterations" := of_opt VInt (max_iterations s)]>
  (<["llm_model" := of_opt VStr (llm_model s)]>
  (<["llm_api_key" := of_opt VSecretStr (llm_api_key s)]>
  (<["llm_base_url" := of_opt VStr (llm_base_url s)]>
  (<["confirmation_mode" := of_opt VBool (confirmation_mode s)]>
  (<["enable_default_condenser" := of_opt VBool (enable_default_condenser s)]>
  (<["enable_sound_notifications" := of_opt VBool (enable_sound_notifications s)]>
  (<["enable_proactive_conversation_starters" :=
       of_opt VBool (enable_proactive_conversation_starters s)]>
  (settings_other s)))))))))).

(** The object [ConversationInitData] builds from its keyword arguments:
    the fields it was given. *)
Record ConversationInitData := { init_fields : gmap string PyVal }.

(** Attribute access; a field that was not given reads as [None]. *)
Definition attr (d : ConversationInitData) (name : string) : PyVal :=
  match init_fields d !! name with
  | Some v => v
  | None => VNone
  end.

Record ConversationMetadata := {
  md_trigger : ConversationTrigger;
  md_conversation_id : string;
  md_title : string;
  md_user_id : option string;
  md_selected_repository : option string;
  md_selected_branch : option string;
  md_git_provider : option ProviderType;
  md_llm_model : PyVal;
}.

Record MessageAction := {
  msg_content : string;
  msg_image_urls : list string;
}.

(** ** Calls to collaborators *)

Inductive Cmd :=
| SettingsStoreImpl_get_instance (user_id : option string)
| settings_store_load (store : SettingsStore)
| ConversationStoreImpl_get_instance (user_id : option string)
| uuid4_hex
| conversation_store_exists (store : ConversationStore) (conversation_id : string)
| run_conversation_variant_test
    (user_id : option string) (conversation_id : string)
    (data : ConversationInitData)
| conversation_store_save_metadata
    (store : ConversationStore) (md : ConversationMetadata)
| maybe_start_agent_loop
    (conversation_id : string) (data : ConversationInitData)
    (user_id : option string) (initial_user_msg : option MessageAction)
    (replay_json : option string).

(** What each call returns. *)
Definition Resp (c : Cmd) : Type :=
  match c with
  | SettingsStoreImpl_get_instance _ => SettingsStore
  | settings_store_load _ => option Settings
  | ConversationStoreImpl_get_instance _ => ConversationStore
  | uuid4_hex => string
  | conversation_store_exists _ _ => bool
  | run_conversation_variant_test _ _ _ => ConversationInitData
  | conversation_store_save_metadata _ _ => unit
  | maybe_start_agent_loop _ _ _ _ _ => AgentLoopInfo
  end.

(** What the caller can see raised: the function's own
    [LLMAuthenticationError], or whatever a collaborator raised. *)
Inductive Exn :=
| LLMAuthenticationError (msg : string)
| Propagated (e : ExtErr).

(** Programs: return, raise, log, or call a collaborator and go on with
    its answer. There is no handler construct: the source has no [try]. *)
Inductive Prog (A : Type) : Type :=
| Ret (a : A)
| Raise (e : Exn)
| Emit (lvl : LogLevel) (site : LogSite) (k : Prog A)
| Call (c : Cmd) (k : Resp c -> Prog A).

Arguments Ret {A} a.
Arguments Raise {A} e.
Arguments Emit {A} lvl site k.
Arguments Call {A} c k.

Fixpoint bind {A B} (p : Prog A) (f : A -> Prog B) : Prog B :=
  match p with
  | Ret a => f a
  | Raise e => Raise e
  | Emit lvl site k => Emit lvl site (bind k f)
  | Call c k => Call c (fun x => bind (k x) f)
  end.

Definition call (c : Cmd) : Prog (Resp c) := Call c Ret.
Definition log (lvl : LogLevel) (site : LogSite) : Prog unit :=
  Emit lvl site (Ret tt).

(** ** Running a program *)

(** One entry of the trace: a call with what it returned or raised, or a
    log record. *)
Inductive Event :=
| E_get_settings_store (user_id : option string) (r : ExtErr + SettingsStore)
| E_load (store : SettingsStore) (r : ExtErr + option Settings)
| E_get_conversation_store (user_id : option string) (r : ExtErr + ConversationStore)
| E_uuid (r : ExtErr + string)
| E_exists (store : ConversationStore) (conversation_id : string) (r : ExtErr + bool)
| E_variant (user_id : option string) (conversation_id : string)
    (data : ConversationInitData) (r : ExtErr + ConversationInitData)
| E_save (store : ConversationStore) (md : ConversationMetadata) (r : ExtErr + unit)
| E_launch (conversation_id : string) (data : ConversationInitData)
    (user_id : option string) (initial_user_msg : option MessageAction)
    (replay_json : option string) (r : ExtErr + AgentLoopInfo)
| E_log (lvl : LogLevel) (site : LogSite).

Definition event_of (c : Cmd) : ExtErr + Resp c -> Event :=
  match c with
  | SettingsStoreImpl_get_instance u => E_get_settings_store u
  | settings_store_load st => E_load st
  | ConversationStoreImpl_get_instance u => E_get_conversation_store u
  | uuid4_hex => E_uuid
  | conversation_store_exists st cid => E_exists st cid
  | run_conversation_variant_test u cid d => E_variant u cid d
  | conversation_store_save_metadata st md => E_save st md
  | maybe_start_agent_loop cid d u m rj => E_launch cid d u m rj
  end.

(** The collaborators: each call is answered from their state, by a
    value or by an error, and changes that state. *)
Record Handler (St : Type) := {
  respond : forall c : Cmd, St -> (ExtErr + Resp c) * St;
}.
Arguments respond {St} h c s.

Record Run (St A : Type) := {
  outcome : Exn + A;
  final : St;
  trace : list Event;
}.
Arguments outcome {St A} r.
Arguments final {St A} r.
Arguments trace {St A} r.

Definition prepend {St A} (ev : Event) (r : Run St A) : Run St A :=
  {| outcome := outcome r; final := final r; trace := ev :: trace r |}.

Fixpoint run {St A} (h : Handler St) (p : Prog A) (s : St) : Run St A :=
  match p with
  | Ret a => {| outcome := inr a; final := s; trace := [] |}
  | Raise e => {| outcome := inl e; final := s; trace := [] |}
  | Emit lvl site k => prepend (E_log lvl site) (run h k s)
  | Call c k =>
      match respond h c s with
      | (inl e, s1) =>
          {| outcome := inl (Propagated e); final := s1;
             trace := [event_of c (inl e)] |}
      | (inr x, s1) => prepend (event_of c (inr x)) (run h (k x) s1)
      end
  end.

(** ** The function *)

Local Notation "x <- p ;; k" := (bind p (fun x => k))
  (at level 100, p at next level, right associativity).
Local Notation "p ;; k" := (bind p (fun _ => k))
  (at level 100, right associativity).

(** The values [Settings(...)] gives to the fields it is not passed: the
    defaults of the imported declaration. *)
Variable settings_field_defaults : gmap string PyVal.

(** [create_new_conversation], statement by statement. The environment the
    function reads with [os.getenv] is its first argument; the arguments
    that have defaults in the signature ([conversation_instructions=None],
    [conversation_trigger=ConversationTrigger.GUI], [attach_convo_id=False],
    [git_provider=None], [conversation_id=None]) are passed by the caller. *)
Definition create_new_conversation
    (env : gmap string string)
    (user_id : option string)
    (git_provider_tokens : option ProviderTokens)
    (custom_secrets : option CustomSecrets)
    (selected_repository : option string)
    (selected_branch : option string)
    (initial_user_msg : option string)
    (image_urls : option (list string))
    (replay_json : option string)
    (conversation_instructions : option string)
    (conversation_trigger : ConversationTrigger)
    (attach_convo_id : bool)
    (git_provider : option ProviderType)
    (conversation_id : option string) : Prog AgentLoopInfo :=
  log INFO Creating_conversation ;;
  log INFO Loading_settings ;;
  settings_store <- call (SettingsStoreImpl_get_instance user_id) ;;
  settings <- call (settings_store_load settings_store) ;;
  log INFO Settings_loaded ;;
  let session_init_args : gmap string PyVal := ∅ in
  session_init_args <-
    match settings with
    | Some settings =>
        let session_init_args :=
          dict_merge (settings_dict settings) session_init_args in
        (* the right operand is evaluated only for a key that is not None *)
        if negb (truthy (llm_api_key settings))
           || match llm_api_key settings with
              | Some key => isspace (get_secret_value key)
              | None => false
              end
        then
          log WARNING Missing_api_key ;;
          Raise (LLMAuthenticationError
            "Error authenticating with the LLM provider. Please check your API key")
        else Ret session_init_args
    | None =>
        log INFO Settings_not_present ;;
        (* a or b or c, read as a or (b or c) *)
        let api_key :=
          or_default (getenv env "LLM_API_KEY")
            (or_default (getenv env "OPENROUTER_API_KEY")
               "mock-api-key-for-testing") in
        let default_settings :=
          {| language := Some "en";
             agent := Some (getenv_default env "DEFAULT_AGENT" "CodeActAgent");
             max_iterations := Some 100%Z;
             llm_model :=
               Some (getenv_default env "LLM_MODEL"
                       "anthropic/claude-3-haiku-20240307");
             llm_api_key := Some {| get_secret_value := api_key |};
             llm_base_url :=
               Some (getenv_default env "LLM_BASE_URL"
                       "https://openrouter.ai/api/v1");
             confirmation_mode := Some false;
             enable_default_condenser := Some true;
             enable_sound_notifications := Some false;
             enable_proactive_conversation_starters := Some true;
             settings_other := settings_field_defaults |} in
        log INFO Using_default_settings ;;
        Ret (dict_merge (settings_dict default_settings) session_init_args)
    end ;;
  let session_init_args :=
    <["git_provider_tokens" := of_opt VProviderTokens git_provider_tokens]>
      session_init_args in
  let session_init_args :=
    <["selected_repository" := of_opt VStr selected_repository]>
      session_init_args in
  let session_init_args :=
    <["custom_secrets" := of_opt VCustomSecrets custom_secrets]>
      session_init_args in
  let session_init_args :=
    <["selected_branch" := of_opt VStr selected_branch]> session_init_args in
  let session_init_args :=
    <["git_provider" := of_opt VProviderType git_provider]>
      session_init_args in
  let session_init_args :=
    <["conversation_instructions" := of_opt VStr conversation_instructions]>
      session_init_args in
  let conversation_init_data := {| init_fields := session_init_args |} in
  log INFO Loading_conversation_store ;;
  conversation_store <- call (ConversationStoreImpl_get_instance user_id) ;;
  log INFO Conversation_store_loaded ;;
  conversation_id <-
    match conversation_id with
    | None => call uuid4_hex
    | Some given => Ret given
    end ;;
  found <- call (conversation_store_exists conversation_store conversation_id) ;;
  conversation_init_data <-
    (if negb found then
       log INFO New_conversation_ID ;;
       conversation_init_data <-
         call (run_conversation_variant_test
                 user_id conversation_id conversation_init_data) ;;
       let conversation_title :=
         get_default_conversation_title conversation_id in
       log INFO Saving_metadata ;;
       call (conversation_store_save_metadata conversation_store
               {| md_trigger := conversation_trigger;
                  md_conversation_id := conversation_id;
                  md_title := conversation_title;
                  md_user_id := user_id;
                  md_selected_repository := selected_repository;
                  md_selected_branch := selected_branch;
                  md_git_provider := git_provider;
                  md_llm_model := attr conversation_init_data "llm_model" |}) ;;
       Ret conversation_init_data
     else Ret conversation_init_data) ;;
  log INFO Starting_agent_loop ;;
  let initial_message_action :=
    if truthy initial_user_msg || truthy image_urls
    then Some {| msg_content := or_default initial_user_msg "";
                 msg_image_urls := or_default image_urls [] |}
    else None in
  (if attach_convo_id
   then log WARNING Attaching_convo_ID_is_deprecated
   else Ret tt) ;;
  agent_loop_info <-
    call (maybe_start_agent_loop conversation_id conversation_init_data
            user_id initial_message_action replay_json) ;;
  log INFO Finished_initializing ;;
  Ret agent_loop_info.

End Model.

Arguments Ret {Ext A} a.
Arguments Raise {Ext A} e.
Arguments Emit {Ext A} lvl site k.
Arguments Call {Ext A} c k.
Arguments respond {Ext St} h c s.
Arguments outcome {Ext St A} r.
Arguments final {Ext St A} r.
Arguments trace {Ext St A} r.

(** ** Reading a trace *)

Section Observations.
Context `{Ext : Externals}.

(** A key the gate lets through: present, and not made of whitespace only
    (the empty key is made of whitespace only). *)
Definition usable_key (k : option SecretStr) : bool :=
  match k with
  | Some key => negb (all_space (get_secret_value key))
  | None => false
  end.

(** The same, of a field of the data handed to the engine. *)
Definition present_and_non_blank (v : PyVal) : bool :=
  match v with
  | VSecretStr key => negb (all_space (get_secret_value key))
  | _ => false
  end.


Definition is_launch (ev : Event) : bool :=
  match ev with E_launch _ _ _ _ _ _ => true | _ => false end.

Definition is_exists (ev : Event) : bool :=
  match ev with E_exists _ _ _ => true | _ => false end.


(** The creation path: variant assignment and the metadata write. *)
Definition is_creation (ev : Event) : bool :=
  match ev with E_variant _ _ _ _ | E_save _ _ _ => true | _ => false end.

Definition is_deprecation_warning (ev : Event) : bool :=
  match ev with
  | E_log WARNING Attaching_convo_ID_is_deprecated => true
  | _ => false
  end.


(** The initial message of every call to the launcher, in order. *)
Fixpoint launched_messages (tr : list Event) : list (option MessageAction) :=
  match tr with
  | [] => []
  | E_launch _ _ _ m _ _ :: rest => m :: launched_messages rest
  | _ :: rest => launched_messages rest
  end.

(** The call that writes to the conversation store. *)
Definition writes_metadata (c : Cmd) : bool :=
  match c with
  | conversation_store_save_metadata _ _ => true
  | _ => false
  end.

(** The data as resolved, where it is first handed on: to the variant
    assigner for a new id, to the launcher for one that exists. *)
Definition resolved_data (tr : list Event) (d : ConversationInitData) : Prop :=
  (exists u cid res, In (E_variant u cid d res) tr)
  \/ (exists cs cid u m rj res,
        In (E_exists cs cid (inr true)) tr
        /\ In (E_launch cid d u m rj res) tr).

(** The per-call fields, written over a dictionary of settings. *)
Definition with_overrides
    (git_provider_tokens : option ProviderTokens)
    (custom_secrets : option CustomSecrets)
    (selected_repository selected_branch : option string)
    (git_provider : option ProviderType)
    (conversation_instructions : option string)
    (base : gmap string PyVal) : gmap string PyVal :=
  <["conversation_instructions" := of_opt VStr conversation_instructions]>
  (<["git_provider" := of_opt VProviderType git_provider]>
  (<["selected_branch" := of_opt VStr selected_branch]>
  (<["custom_secrets" := of_opt VCustomSecrets custom_secrets]>
  (<["selected_repository" := of_opt VStr selected_repository]>
  (<["git_provider_tokens" := of_opt VProviderTokens git_provider_tokens]>
     base))))).

(** The same call made [n] times in a row, each from the state the one
    before left: the final state and the whole trace. *)
Fixpoint run_many {St A} (h : Handler St) (p : Prog A) (n : nat) (s : St)
  : St * list Event :=
  match n with
  | O => (s, [])
  | S n' =>
      let r := run h p s in
      let rest := run_many h p n' (final r) in
      (fst rest, trace r ++ snd rest)
  end.

(** The invariant of the spec: whenever the engine is launched, the key it
    is handed is present and non-blank. *)
Definition launched_with_usable_key (tr : list Event) : Prop :=
  forall cid d u m rj res,
    In (E_launch cid d u m rj res) tr ->
    present_and_non_blank (attr d "llm_api_key") = true.

(** The error of the credential gate. *)
Definition authentication_failure : Exn :=
  LLMAuthenticationError
    "Error authenticating with the LLM provider. Please check your API key".

(** The settings synthesized when the store has none: the environment
    where it speaks, the hardcoded values otherwise. *)
Definition anonymous_defaults
    (settings_field_defaults : gmap string PyVal)
    (env : gmap string string) : Settings :=
  {| language := Some "en";
     agent := Some (default "CodeActAgent" (env !! "DEFAULT_AGENT"));
     max_iterations := Some 100%Z;
     llm_model :=
       Some (default "anthropic/claude-3-haiku-20240307" (env !! "LLM_MODEL"));
     llm_api_key :=
       Some {| get_secret_value :=
                 or_default (env !! "LLM_API_KEY")
                   (or_default (env !! "OPENROUTER_API_KEY")
                      "mock-api-key-for-testing") |};
     llm_base_url :=
       Some (default "https://openrouter.ai/api/v1" (env !! "LLM_BASE_URL"));
     confirmation_mode := Some false;
     enable_default_condenser := Some true;
     enable_sound_notifications := Some false;
     enable_proactive_conversation_starters := Some true;
     settings_other := settings_field_defaults |}.

(** The place of a call in the flow: settings store, its load, conversation
    store, uuid, existence check, variant assigner, metadata write,
    launcher. Log records have none. *)
Definition rank (ev : Event) : option nat :=
  match ev with
  | E_get_settings_store _ _ => Some 0
  | E_load _ _ => Some 1
  | E_get_conversation_store _ _ => Some 2
  | E_uuid _ => Some 3
  | E_exists _ _ _ => Some 4
  | E_variant _ _ _ _ => Some 5
  | E_save _ _ _ => Some 6
  | E_launch _ _ _ _ _ _ => Some 7
  | E_log _ _ => None
  end%nat.

Fixpoint ranks (tr : list Event) : list nat :=
  match tr with
  | [] => []
  | ev :: rest =>
      match rank ev with
      | Some n => n :: ranks rest
      | None => ranks rest
      end
  end.

(** The user a call is made for. *)
Definition user_of (ev : Event) : option (option string) :=
  match ev with
  | E_get_settings_store u _ | E_get_conversation_store u _
  | E_variant u _ _ _ | E_launch _ _ u _ _ _ => Some u
  | E_save _ md _ => Some (md_user_id md)
  | _ => None
  end.

(** The six fields the call writes over the settings. *)
Definition per_call_field (name : string) : bool :=
  bool_decide
    (name ∈ ["git_provider_tokens"; "selected_repository"; "custom_secrets";
             "selected_branch"; "git_provider"; "conversation_instructions"]).

End Observations.

(** ** A reference deployment

    Concrete collaborators: settings per user, a metadata store keyed by
    conversation id, a supply of generated ids, an experiment that may
    replace the model, and a store that can be down. *)
Module Demo.

#[export] Instance ext : Externals := {|
  ProviderTokens := string;
  CustomSecrets := string;
  ProviderType := string;
  ConversationTrigger := string;
  AgentLoopInfo := string;
  SettingsStore := option string;
  ConversationStore := option string;
  ExtErr := string;
  get_default_conversation_title :=
    fun conversation_id => "Conversation " +:+ substring 0 5 conversation_id;
|}.

Record World := {
  stored_settings : gmap string Settings;
  metadata : gmap string ConversationMetadata;
  uuids : list string;
  variant_model : option string;
  store_down : bool;
}.

Definition answer (c : Cmd) (w : World) : (ExtErr + Resp c) * World :=
  match c as c0 return (ExtErr + Resp c0) * World with
  | SettingsStoreImpl_get_instance u => (inr u, w)
  | settings_store_load st =>
      (inr (match st with
            | Some u => stored_settings w !! u
            | None => None
            end), w)
  | ConversationStoreImpl_get_instance u => (inr u, w)
  | uuid4_hex =>
      match uuids w with
      | [] => (inl "entropy", w)
      | u :: rest =>
          (inr u,
           {| stored_settings := stored_settings w; metadata := metadata w;
              uuids := rest; variant_model := variant_model w;
              store_down := store_down w |})
      end
  | conversation_store_exists _ cid =>
      if store_down w then (inl "store unavailable", w)
      else (inr (bool_decide (is_Some (metadata w !! cid))), w)
  | run_conversation_variant_test _ _ d =>
      (inr (match variant_model w with
            | Some m =>
                {| init_fields := <["llm_model" := VStr m]> (init_fields d) |}
            | None => d
            end), w)
  | conversation_store_save_metadata _ md =>
      (inr tt,
       {| stored_settings := stored_settings w;
          metadata := <[md_conversation_id md := md]> (metadata w);
          uuids := uuids w; variant_model := variant_model w;
          store_down := store_down w |})
  | maybe_start_agent_loop cid _ _ _ _ => (inr cid, w)
  end.

Definition handler : Handler World := {| respond := answer |}.

(** The conversation store's part of the world. *)
Definition store_of (w : World) : gmap string ConversationMetadata * bool :=
  (metadata w, store_down w).

Definition settings_with_key (k : option SecretStr) : Settings :=
  {| language := Some "en"; agent := Some "CodeActAgent";
     max_iterations := Some 50%Z; llm_model := Some "gpt-4o";
     llm_api_key := k; llm_base_url := None;
     confirmation_mode := Some false; enable_default_condenser := Some true;
     enable_sound_notifications := Some false;
     enable_proactive_conversation_starters := Some true;
     settings_other := ∅ |}.

Definition some_metadata (cid : string) : ConversationMetadata :=
  {| md_trigger := "gui"; md_conversation_id := cid;
     md_title := "Conversation " +:+ substring 0 5 cid; md_user_id := Some "u1";
     md_selected_repository := None; md_selected_branch := None;
     md_git_provider := None; md_llm_model := VStr "gpt-4o" |}.

(** Nothing stored, one id to hand out. *)
Definition fresh : World :=
  {| stored_settings := ∅; metadata := ∅; uuids := ["0123456789abcdef"];
     variant_model := None; store_down := false |}.

(** User u1 has settings with the given key; conversation c1 exists. *)
Definition with_user (k : option SecretStr) : World :=
  {| stored_settings := {[ "u1" := settings_with_key k ]};
     metadata := {[ "c1" := some_metadata "c1" ]};
     uuids := ["0123456789abcdef"];
     variant_model := Some "experiment/model"; store_down := false |}.

Definition store_is_down : World :=
  {| stored_settings := ∅; metadata := ∅; uuids := ["0123456789abcdef"];
     variant_model := None; store_down := true |}.

(** The same deployment with an engine that refuses to start. *)
Definition answer_engine_down (c : Cmd) (w : World)
  : (ExtErr + Resp c) * World :=
  match c as c0 return (ExtErr + Resp c0) * World with
  | maybe_start_agent_loop _ _ _ _ _ => (inl "engine unavailable", w)
  | c0 => answer c0 w
  end.

Definition handler_engine_down : Handler World :=
  {| respond := answer_engine_down |}.

(** Whether the store holds a conversation id. *)
Definition holds (v : gmap string ConversationMetadata * bool) (cid : string)
  : bool :=
  bool_decide (is_Some (fst v !! cid)).

(** A key made of whitespace only: SPACE, EM SPACE (U+2003), NO-BREAK SPACE
    (U+00A0), IDEOGRAPHIC SPACE (U+3000) and TAB, in UTF-8. *)
Definition em_space : string :=
  String "226"%char (String "128"%char (String "131"%char EmptyString)).

Definition unicode_blank : string :=
  " " +:+ em_space
  +:+ String "194"%char (String "160"%char EmptyString)
  +:+ String "227"%char (String "128"%char (String "128"%char EmptyString))
  +:+ String "009"%char EmptyString.

End Demo.

(** ** Properties of [create_new_conversation] *)

(** The test of the gate, in the words of [usable_key]. *)
Lemma gate_test (k : option SecretStr) :
  negb (truthy k)
  || match k with
     | Some key => isspace (get_secret_value key)
     | None => false
     end
  = negb (usable_key k).
Proof.
  destruct k as [[s]|]; [|reflexivity].
  destruct s as [|a s]; [reflexivity|].
  change (negb true || all_space (String a s)
          = negb (negb (all_space (String a s)))).
  now rewrite negb_involutive.
Qed.

(** [x or ''] and [x or []] are [x], with [None] read as empty. *)
Lemma or_default_str (x : option string) :
  or_default x "" = default "" x.
Proof. destruct x as [[|a s]|]; reflexivity. Qed.

Lemma or_default_list {A} (x : option (list A)) :
  or_default x [] = default [] x.
Proof. destruct x as [[|a l]|]; reflexivity. Qed.

Lemma dict_merge_empty {V} (a : gmap string V) : dict_merge a ∅ = a.
Proof.
  unfold dict_merge. apply map_eq. intros k.
  now rewrite lookup_union_r by apply lookup_empty.
Qed.

(** The value of a key in a dictionary that is written out. *)
Ltac lookup_dict :=
  cbn [init_fields];
  unfold settings_dict; rewrite ?dict_merge_empty;
  repeat first [ rewrite lookup_insert_eq
               | rewrite lookup_insert_ne by discriminate ].

(** Symbolic execution of [H : r = run h p s]: unfold the interpreter over
    the program, and split on every answer of a collaborator and on every
    test of the function; at the end [r] is a record that is written out. *)
Ltac unfold_run H :=
  cbn [run bind call log prepend outcome final trace event_of Resp negb] in H.

Ltac split_on_answer H :=
  match type of H with
  | context [respond ?h ?c ?s] =>
      match goal with
      | E : respond h c s = _ |- _ => rewrite E in H
      end
  | context [respond ?h ?c ?s] =>
      let e := fresh "e" in
      let x := fresh "x" in
      let s' := fresh "s" in
      let E := fresh "Hcall" in
      destruct (respond h c s) as [[e | x] s'] eqn:E
  end.

Ltac split_on_test H :=
  match type of H with
  | context [negb (truthy (llm_api_key ?st)) || _] =>
      rewrite (gate_test (llm_api_key st)) in H;
      first
        [ match goal with
          | E : usable_key (llm_api_key st) = _ |- _ => rewrite E in H
          end
        | let E := fresh "Hkey" in
          destruct (usable_key (llm_api_key st)) eqn:E ];
      cbn [negb] in H
  | context [bind (match ?x with Some _ => _ | None => _ end) _] =>
      is_var x; destruct x
  | context [bind (if negb ?b then _ else _) _] =>
      is_var b; destruct b; cbn [negb] in H
  | context [bind (if ?b then _ else _) _] => is_var b; destruct b
  end.

Ltac walk r :=
  let H := fresh "Hrun" in
  assert (H : r = r) by reflexivity;
  unfold r at 2 in H; clearbody r;
  unfold create_new_conversation in H;
  repeat (unfold_run H; first [split_on_answer H | split_on_test H]);
  unfold_run H; cbv [prepend outcome final trace] in H.

(** Use what the run is: in a hypothesis, or in the goal. *)
Ltac known_run_in H :=
  match goal with
  | Hrun : ?r = @Build_Run _ _ _ _ _ _ |- _ =>
      rewrite Hrun in H; cbn [outcome final trace] in H
  end.

Ltac known_run :=
  match goal with
  | Hrun : ?r = @Build_Run _ _ _ _ _ _ |- _ =>
      try (rewrite Hrun; cbn [outcome final trace]); clear Hrun; try clear r
  end.

(** [subst], but for the equation that says what the run is. *)
Ltac subst_keeping_run :=
  lazymatch goal with
  | Hrun : ?r = @Build_Run _ _ _ _ _ _ |- _ =>
      revert Hrun; subst; intros Hrun
  | _ => subst
  end.

(** Membership in a trace that is written out. *)
Ltac in_trace H :=
  try known_run_in H;
  cbn [In] in H;
  repeat match type of H with
         | _ \/ _ => destruct H as [H | H]
         | False => destruct H
         end;
  try discriminate H;
  try (injection H as H; subst_keeping_run).

(** An event is in a trace that is written out. *)
Ltac find_in_trace :=
  cbn [In]; repeat first [left; reflexivity | right].

(** The part of a trace before the first event [f] picks. *)
Ltac prefix_until f l :=
  lazymatch l with
  | ?x :: ?l' =>
      let b := eval cbv in (f x) in
      lazymatch b with
      | true => constr:(@nil Event)
      | false => let p := prefix_until f l' in constr:(x :: p)
      end
  end.

(** A call that does not write to the store leaves it as it was. *)
Ltac frame_calls Hframe :=
  repeat match goal with
         | E : respond ?h ?c ?a = (_, ?b) |- _ =>
             let F := fresh "Hsame" in
             pose proof (Hframe c a eq_refl) as F;
             rewrite E in F; cbn [snd] in F;
             revert E
         end;
  intros.

(** Every event of a trace that is written out satisfies a property that
    computes. *)
Ltac each_event tac :=
  repeat (constructor; [tac|]); constructor.

Section Properties.
Context `{Ext : Externals}.
Context {St : Type} (h : Handler St).
Variable settings_field_defaults : gmap string PyVal.
Variable env : gmap string string.

Variables (user_id : option string)
          (git_provider_tokens : option ProviderTokens)
          (custom_secrets : option CustomSecrets)
          (selected_repository selected_branch : option string)
          (initial_user_msg : option string)
          (image_urls : option (list string))
          (replay_json conversation_instructions : option string)
          (conversation_trigger : ConversationTrigger)
          (git_provider : option ProviderType).

(** The call, with all but the attach flag and the conversation id fixed. *)
Local Abbreviation create attach_convo_id conversation_id :=
  (create_new_conversation settings_field_defaults env user_id
     git_provider_tokens custom_secrets selected_repository selected_branch
     initial_user_msg image_urls replay_json conversation_instructions
     conversation_trigger attach_convo_id git_provider conversation_id).

(** C1 (amended). When stored settings are resolved and their key is
    missing, empty or only whitespace, the call fails with
    LLMAuthenticationError, and the whole trace is the two settings-store
    calls and the logging around them: no id is generated, nothing is asked
    of or written to the conversation store, the engine is not launched.
    Hence, on a call that resolved stored settings, a launch implies that
    the stored key is present and non-blank; that key is the one handed to
    the engine when the id already existed, and for a new id the engine
    gets the data the variant assigner returned. *)
Theorem credential_gate (attach_convo_id : bool) (conversation_id : option string)
    (s : St) (store : SettingsStore) (settings : Settings) :
  let r := run h (create attach_convo_id conversation_id) s in
  In (E_load store (inr (Some settings))) (trace r) ->
  (usable_key (llm_api_key settings) = false ->
     outcome r = inl authentication_failure
     /\ trace r =
        [E_log INFO Creating_conversation; E_log INFO Loading_settings;
         E_get_settings_store user_id (inr store);
         E_load store (inr (Some settings));
         E_log INFO Settings_loaded; E_log WARNING Missing_api_key])
  /\ (forall cid d u m rj res,
        In (E_launch cid d u m rj res) (trace r) ->
        usable_key (llm_api_key settings) = true
        /\ (forall cs, In (E_exists cs cid (inr true)) (trace r) ->
              attr d "llm_api_key" = of_opt VSecretStr (llm_api_key settings)
              /\ present_and_non_blank (attr d "llm_api_key") = true)
        /\ (forall cs, In (E_exists cs cid (inr false)) (trace r) ->
              exists d0, In (E_variant u cid d0 (inr d)) (trace r))).
Proof.
  intros r. walk r.
  all: intros Hload; in_trace Hload.
  all: split; [intros Hblank; try congruence; known_run; split; reflexivity|].
  all: intros cid d u m rj res Hlaunch; in_trace Hlaunch.
  all: (split; [assumption|]).
  all: split; intros cs Hex; in_trace Hex.
  all: known_run.
  all: try (eexists; find_in_trace; fail).
  all: unfold attr; lookup_dict.
  all: split; [reflexivity|].
  all: destruct (llm_api_key settings); [assumption | discriminate].
Qed.

Section Store.
Context {V : Type} (store_of : St -> V).
(** Only [save_metadata] changes the conversation store. *)
Hypothesis frame : forall c s,
  writes_metadata c = false -> store_of (snd (respond h c s)) = store_of s.

(** One call that finds its id in the store: no creation step in the
    trace, and the store is left as it was. *)
Lemma existing_once (attach_convo_id : bool) (conversation_id : option string)
    (s : St) (cs : ConversationStore) (cid : string) :
  let r := run h (create attach_convo_id conversation_id) s in
  In (E_exists cs cid (inr true)) (trace r) ->
  forallb (fun ev => negb (is_creation ev)) (trace r) = true
  /\ store_of (final r) = store_of s.
Proof.
  intros r. walk r.
  all: intros Hex; in_trace Hex.
  all: known_run; split; [reflexivity|].
  all: frame_calls frame; congruence.
Qed.

(** One call for an id the store holds: whichever way it ends, nothing is
    created and the store is left as it was. *)
Lemma held_id_once (attach_convo_id : bool) (cid : string) (s : St) :
  (forall cs s', store_of s' = store_of s ->
     fst (respond h (conversation_store_exists cs cid) s') = inr true) ->
  let r := run h (create attach_convo_id (Some cid)) s in
  forallb (fun ev => negb (is_creation ev)) (trace r) = true
  /\ store_of (final r) = store_of s.
Proof.
  intros Hheld r. walk r.
  all: frame_calls frame.
  all: try match goal with
       | E : respond _ (conversation_store_exists ?cs _) ?a = _ |- _ =>
           let F := fresh in
           assert (F : store_of a = store_of s) by congruence;
           apply (Hheld cs) in F; rewrite E in F; cbn [fst] in F;
           discriminate F
       end.
  all: known_run; split; [reflexivity | congruence].
Qed.

Lemma held_id_many (attach_convo_id : bool) (cid : string) (n : nat) (s : St) :
  (forall cs s', store_of s' = store_of s ->
     fst (respond h (conversation_store_exists cs cid) s') = inr true) ->
  let runs := run_many h (create attach_convo_id (Some cid)) n s in
  forallb (fun ev => negb (is_creation ev)) (snd runs) = true
  /\ store_of (fst runs) = store_of s.
Proof.
  revert s. induction n as [|n IH]; intros s Hheld.
  - split; reflexivity.
  - cbn [run_many fst snd].
    destruct (held_id_once attach_convo_id cid s Hheld) as [Hnone Hsame].
    destruct (IH (final (run h (create attach_convo_id (Some cid)) s)))
      as [Hnone' Hsame'].
    { intros cs s' Hs'. apply Hheld. congruence. }
    split.
    + rewrite forallb_app, Hnone. exact Hnone'.
    + congruence.
Qed.

End Store.

(** C2. A call whose existence check answers true invokes neither the
    variant assigner nor the metadata write: after the check come the
    log record, the deprecation warning if the flag is set, and the call
    to the launcher. As only the metadata write changes the store, the
    store is left as it was; and for an id the store holds, this is so
    after any number of repeated calls. *)
Theorem existing_id_is_not_recreated {V : Type} (store_of : St -> V) :
  (forall c s,
     writes_metadata c = false -> store_of (snd (respond h c s)) = store_of s) ->
  (forall (attach_convo_id : bool) (conversation_id : option string)
          (s : St) (cs : ConversationStore) (cid : string),
     let r := run h (create attach_convo_id conversation_id) s in
     In (E_exists cs cid (inr true)) (trace r) ->
     forallb (fun ev => negb (is_creation ev)) (trace r) = true
     /\ store_of (final r) = store_of s
     /\ exists pre d m res post,
          trace r =
            pre ++ E_exists cs cid (inr true)
                :: E_log INFO Starting_agent_loop
                :: (if attach_convo_id
                    then [E_log WARNING Attaching_convo_ID_is_deprecated]
                    else [])
                ++ E_launch cid d user_id m replay_json res :: post)
  /\ (forall (attach_convo_id : bool) (cid : string) (s : St),
        (forall cs s', store_of s' = store_of s ->
           fst (respond h (conversation_store_exists cs cid) s') = inr true) ->
        forall n : nat,
          let runs := run_many h (create attach_convo_id (Some cid)) n s in
          forallb (fun ev => negb (is_creation ev)) (snd runs) = true
          /\ store_of (fst runs) = store_of s).
Proof.
  intros frame. split.
  - intros attach_convo_id conversation_id s cs cid r Hex.
    destruct (existing_once store_of frame attach_convo_id conversation_id
                s cs cid Hex) as [Hnone Hsame].
    split; [exact Hnone|]. split; [exact Hsame|].
    clear Hnone Hsame. revert Hex. walk r.
    all: intros Hex; in_trace Hex.
    all: known_run.
    all: match goal with
         | |- exists pre, _ /\ _ => idtac
         | |- exists pre d m res post, ?l = _ =>
             let p := prefix_until is_exists l in
             exists p; do 4 eexists; reflexivity
         end.
  - intros attach_convo_id cid s Hheld n.
    apply (held_id_many store_of frame); exact Hheld.
Qed.

(** With nothing stored, the data handed on is the synthesized settings
    with the per-call fields written over them. *)
Lemma anonymous_data_resolved (attach_convo_id : bool)
    (conversation_id : option string) (s : St) (store : SettingsStore) :
  let r := run h (create attach_convo_id conversation_id) s in
  In (E_load store (inr None)) (trace r) ->
  forall d, resolved_data (trace r) d ->
    init_fields d =
      with_overrides git_provider_tokens custom_secrets selected_repository
        selected_branch git_provider conversation_instructions
        (settings_dict (anonymous_defaults settings_field_defaults env)).
Proof.
  intros r. walk r.
  all: intros Hload; in_trace Hload.
  all: intros d [(u & cid & res & Hd) | (cs & cid & u & m & rj & res & Hex & Hd)].
  all: try (in_trace Hex); in_trace Hd.
  all: cbn [init_fields]; rewrite dict_merge_empty; reflexivity.
Qed.



(** C4. For a new conversation the existence check is followed by the call
    to the variant assigner, on the data resolved from the stored settings
    and the per-call fields; nothing was created before. Once the assigner
    has returned, the metadata write follows, and the record written holds
    the id, the trigger, the default title of the id, the user, the
    repository, the branch, the provider and the model of the data the
    assigner returned. There is no other write. *)
Theorem new_conversation_records_assigned_model (attach_convo_id : bool)
    (conversation_id : option string) (s : St)
    (cs : ConversationStore) (cid : string) :
  let r := run h (create attach_convo_id conversation_id) s in
  In (E_exists cs cid (inr false)) (trace r) ->
  exists pre d0 res post,
    trace r =
      pre ++ E_exists cs cid (inr false)
          :: E_log INFO New_conversation_ID
          :: E_variant user_id cid d0 res :: post
    /\ forallb (fun ev => negb (is_creation ev)) pre = true
    /\ (forall store settings,
          In (E_load store (inr (Some settings))) (trace r) ->
          init_fields d0 =
            with_overrides git_provider_tokens custom_secrets
              selected_repository selected_branch git_provider
              conversation_instructions (settings_dict settings))
    /\ (forall d1, res = inr d1 ->
          exists saved post',
            post =
              E_log INFO Saving_metadata
              :: E_save cs
                   {| md_trigger := conversation_trigger;
                      md_conversation_id := cid;
                      md_title := get_default_conversation_title cid;
                      md_user_id := user_id;
                      md_selected_repository := selected_repository;
                      md_selected_branch := selected_branch;
                      md_git_provider := git_provider;
                      md_llm_model := attr d1 "llm_model" |} saved
              :: post'
            /\ forallb (fun ev => negb (is_creation ev)) post' = true).
Proof.
  intros r. walk r.
  all: intros Hex; in_trace Hex.
  all: known_run.
  all: match goal with
       | |- exists pre d0 res post, ?l = _ /\ _ =>
           let p := prefix_until is_exists l in
           exists p; do 3 eexists; split; [reflexivity|]
       end.
  all: split; [reflexivity|].
  all: split;
    [ intros store settings Hload; in_trace Hload;
      cbn [init_fields]; rewrite ?dict_merge_empty; reflexivity
    | intros d1 Hres; try discriminate Hres; injection Hres as <-;
      do 2 eexists; split; reflexivity ].
Qed.

(** C5. If the existence check or the metadata write raises, the caller
    gets that very error and the engine is never asked to start. *)
Theorem store_errors_abandon_creation (attach_convo_id : bool)
    (conversation_id : option string) (s : St) (e : ExtErr) :
  let r := run h (create attach_convo_id conversation_id) s in
  (exists cs cid, In (E_exists cs cid (inl e)) (trace r))
  \/ (exists cs md, In (E_save cs md (inl e)) (trace r)) ->
  outcome r = inl (Propagated e)
  /\ forallb (fun ev => negb (is_launch ev)) (trace r) = true.
Proof.
  intros r. walk r.
  all: intros [(cs & cid & H) | (cs & md & H)]; in_trace H.
  all: known_run; split; reflexivity.
Qed.

(** The message the function builds, in terms of the text and the images
    with [None] read as empty. *)
Lemma built_message (text : option string) (images : option (list string)) :
  let m :=
    if truthy text || truthy images
    then Some {| msg_content := or_default text "";
                 msg_image_urls := or_default images [] |}
    else None in
  (default "" text = "" -> default [] images = [] -> m = None)
  /\ (default "" text <> "" \/ default [] images <> [] ->
      m = Some {| msg_content := default "" text;
                  msg_image_urls := default [] images |}).
Proof.
  destruct text as [[|a t]|], images as [[|i l]|]; cbn; split;
    try reflexivity; try discriminate; intros [H|H]; congruence.
Qed.

(** C6. The launcher is called at most once, and once when the call
    succeeds. With the text empty or absent and the image list empty or
    absent it is passed no initial message; with either non-empty it is
    passed one message holding that text and those images. *)
Theorem initial_message_construction (attach_convo_id : bool)
    (conversation_id : option string) (s : St) :
  let r := run h (create attach_convo_id conversation_id) s in
  (length (launched_messages (trace r)) <= 1)%nat
  /\ (forall info, outcome r = inr info ->
        length (launched_messages (trace r)) = 1%nat)
  /\ (forall m, In m (launched_messages (trace r)) ->
        (default "" initial_user_msg = "" -> default [] image_urls = [] ->
           m = None)
        /\ (default "" initial_user_msg <> "" \/ default [] image_urls <> [] ->
           m = Some {| msg_content := default "" initial_user_msg;
                       msg_image_urls := default [] image_urls |})).
Proof.
  intros r. walk r. all: known_run; cbn [launched_messages length].
  all: split; [lia|].
  all: split; [intros info Hout; first [discriminate Hout | reflexivity]|].
  all: intros m Hm; in_trace Hm; subst m.
  all: apply built_message.
Qed.


(** C8. The attach flag changes nothing but the log: with and without it
    the call returns or raises the same, leaves the collaborators in the
    same state and makes the same calls in the same order; the flag adds
    one warning to the trace and nothing else. *)
Theorem attach_flag_is_inert (conversation_id : option string) (s : St) :
  let with_flag := run h (create true conversation_id) s in
  let without := run h (create false conversation_id) s in
  outcome with_flag = outcome without
  /\ final with_flag = final without
  /\ List.filter (fun ev => negb (is_deprecation_warning ev)) (trace with_flag)
     = trace without
  /\ (length (List.filter is_deprecation_warning (trace with_flag)) <= 1)%nat
  /\ List.filter is_deprecation_warning (trace without) = [].
Proof.
  intros with_flag without. walk with_flag. all: walk without.
  all: repeat known_run.
  all: do 3 (split; [reflexivity|]).
  all: split; [cbn [List.filter is_deprecation_warning length]; lia | reflexivity].
Qed.

(** C9. The gate also guards resumption: with a supplied id, stored
    settings whose key is missing, empty or only whitespace make the call
    fail with LLMAuthenticationError before the existence check, so the
    conversation store is never asked about the id (whether or not it
    exists there), nothing is created and the engine is not launched. *)
Theorem gate_precedes_existence_check (attach_convo_id : bool) (cid : string)
    (s : St) (store : SettingsStore) (settings : Settings) :
  let r := run h (create attach_convo_id (Some cid)) s in
  In (E_load store (inr (Some settings))) (trace r) ->
  usable_key (llm_api_key settings) = false ->
  outcome r = inl authentication_failure
  /\ forallb (fun ev => negb (is_exists ev || is_creation ev || is_launch ev))
       (trace r) = true.
Proof.
  intros r. walk r.
  all: intros Hload Hblank; in_trace Hload.
  all: try congruence.
  all: known_run; split; reflexivity.
Qed.

(** C10. Images without text: whenever the launcher is called, it is
    passed a message whose content is the empty string and whose images are
    the ones supplied. *)
Theorem image_only_message (attach_convo_id : bool)
    (conversation_id : option string) (s : St)
    (first_image : string) (more_images : list string) :
  image_urls = Some (first_image :: more_images) ->
  initial_user_msg = None \/ initial_user_msg = Some "" ->
  let r := run h (create attach_convo_id conversation_id) s in
  (forall info, outcome r = inr info ->
     launched_messages (trace r) <> [])
  /\ forall m, In m (launched_messages (trace r)) ->
       m = Some {| msg_content := "";
                   msg_image_urls := first_image :: more_images |}.
Proof.
  intros Himages Htext r. walk r. all: known_run; cbn [launched_messages].
  all: split; [intros info Hout; first [discriminate Hout | discriminate]|].
  all: intros m Hm; in_trace Hm; subst m.
  all: rewrite Himages; destruct Htext as [-> | ->]; reflexivity.
Qed.

(** X2. The collaborators are called in one fixed order, each at most
    once: settings store, load, conversation store, uuid, existence check,
    variant assigner, metadata write, launcher. *)
Theorem calls_in_order (attach_convo_id : bool)
    (conversation_id : option string) (s : St) :
  let r := run h (create attach_convo_id conversation_id) s in
  Sorted lt (ranks (trace r)).
Proof.
  intros r. walk r. all: known_run; cbn [ranks rank].
  all: repeat (constructor; try lia).
Qed.

(** X3. The result of the launcher is the result of the call: the handle
    it returns is returned, the error it raises is raised. It is called
    for the user and with the replay payload of the call; and a call that
    returns a handle got it from the launcher. *)
Theorem launcher_result_is_the_result (attach_convo_id : bool)
    (conversation_id : option string) (s : St) :
  let r := run h (create attach_convo_id conversation_id) s in
  (forall cid d u m rj res,
     In (E_launch cid d u m rj res) (trace r) ->
     u = user_id /\ rj = replay_json
     /\ outcome r = match res with
                    | inl e => inl (Propagated e)
                    | inr info => inr info
                    end)
  /\ (forall info, outcome r = inr info ->
        exists cid d m,
          In (E_launch cid d user_id m replay_json (inr info)) (trace r)).
Proof.
  intros r. walk r.
  all: split.
  all: try (intros cid d u m rj res Hlaunch; in_trace Hlaunch; known_run;
            repeat split; reflexivity).
  all: intros info Hout; known_run_in Hout;
       first [ discriminate Hout
             | injection Hout as <-; known_run; do 3 eexists; find_in_trace ].
Qed.

(** X4. LLMAuthenticationError is raised exactly when settings were
    loaded and their key is missing, empty or only whitespace. A stored key
    with one character that is not whitespace passes the gate as it is. *)
Theorem authentication_error_iff (attach_convo_id : bool)
    (conversation_id : option string) (s : St) :
  let r := run h (create attach_convo_id conversation_id) s in
  ((exists msg, outcome r = inl (LLMAuthenticationError msg))
   <-> (exists store settings,
          In (E_load store (inr (Some settings))) (trace r)
          /\ usable_key (llm_api_key settings) = false))
  /\ (forall store settings key,
        In (E_load store (inr (Some settings))) (trace r) ->
        llm_api_key settings = Some key ->
        all_space (get_secret_value key) = false ->
        forall msg, outcome r <> inl (LLMAuthenticationError msg)).
Proof.
  intros r. walk r.
  all: split; [split|].
  all: try (intros (msg & Hout); known_run_in Hout;
            first [ discriminate Hout
                  | known_run; do 2 eexists; split;
                    [find_in_trace | assumption] ]).
  all: try (intros (store & settings & Hload & Hkey'); in_trace Hload;
            first [ congruence | known_run; eexists; reflexivity ]).
  all: intros store settings key Hload Hsome Hspace; in_trace Hload.
  all: intros msg; known_run; first [ discriminate | idtac ].
  all: exfalso; unfold usable_key in *;
       match goal with
       | H : match llm_api_key _ with _ => _ end = false |- _ =>
           rewrite Hsome, Hspace in H; discriminate H
       end.
Qed.

(** X5. When the launcher raises, the caller gets its error, and for a new
    conversation the metadata was already written: the record for that id
    is in the store although no session runs. *)
Theorem launch_failure_keeps_metadata (attach_convo_id : bool)
    (conversation_id : option string) (s : St) (e : ExtErr)
    (cid : string) (d : ConversationInitData) (u : option string)
    (m : option MessageAction) (rj : option string) :
  let r := run h (create attach_convo_id conversation_id) s in
  In (E_launch cid d u m rj (inl e)) (trace r) ->
  outcome r = inl (Propagated e)
  /\ (forall cs, In (E_exists cs cid (inr false)) (trace r) ->
        exists md, In (E_save cs md (inr tt)) (trace r)
                   /\ md_conversation_id md = cid).
Proof.
  intros r. walk r.
  all: intros Hlaunch; in_trace Hlaunch.
  all: split; [known_run; reflexivity|].
  all: intros cs Hex; in_trace Hex.
  all: repeat match goal with
              | x : Resp (conversation_store_save_metadata _ _) |- _ =>
                  cbn [Resp] in x; destruct x
              end.
  all: known_run; eexists; split; [find_in_trace | reflexivity].
Qed.

(** The per-call fields in a dictionary they were written over: each holds
    the value of the call, every other field is as it was. *)
Lemma lookup_with_overrides
    (tokens : option ProviderTokens) (secrets : option CustomSecrets)
    (repository branch : option string) (provider : option ProviderType)
    (instructions : option string) (base : gmap string PyVal) :
  let fields :=
    with_overrides tokens secrets repository branch provider instructions
      base in
  fields !! "git_provider_tokens" = Some (of_opt VProviderTokens tokens)
  /\ fields !! "custom_secrets" = Some (of_opt VCustomSecrets secrets)
  /\ fields !! "selected_repository" = Some (of_opt VStr repository)
  /\ fields !! "selected_branch" = Some (of_opt VStr branch)
  /\ fields !! "git_provider" = Some (of_opt VProviderType provider)
  /\ fields !! "conversation_instructions" = Some (of_opt VStr instructions)
  /\ (forall name, per_call_field name = false ->
        fields !! name = base !! name).
Proof.
  intros fields. subst fields. unfold with_overrides.
  repeat match goal with
         | |- _ /\ _ => split
         end.
  1-6: repeat first [ rewrite lookup_insert_eq
                    | rewrite lookup_insert_ne by discriminate ];
       reflexivity.
  intros name Hname. unfold per_call_field in Hname.
  apply bool_decide_eq_false in Hname.
  rewrite !not_elem_of_cons in Hname.
  destruct Hname as (H1 & H2 & H3 & H4 & H5 & H6 & _).
  rewrite !lookup_insert_ne by congruence. reflexivity.
Qed.

(** X6. With stored settings, the data handed on (to the assigner for a
    new id, to the launcher for an existing one) is the stored settings
    with the six per-call fields written over them: a per-call field holds
    the value of the call even when that value is None and the stored
    settings had one; every other field is the stored one. *)
Theorem stored_settings_with_overrides (attach_convo_id : bool)
    (conversation_id : option string) (s : St)
    (store : SettingsStore) (settings : Settings) :
  let r := run h (create attach_convo_id conversation_id) s in
  In (E_load store (inr (Some settings))) (trace r) ->
  forall d, resolved_data (trace r) d ->
    init_fields d !! "git_provider_tokens"
      = Some (of_opt VProviderTokens git_provider_tokens)
    /\ init_fields d !! "custom_secrets"
       = Some (of_opt VCustomSecrets custom_secrets)
    /\ init_fields d !! "selected_repository"
       = Some (of_opt VStr selected_repository)
    /\ init_fields d !! "selected_branch" = Some (of_opt VStr selected_branch)
    /\ init_fields d !! "git_provider" = Some (of_opt VProviderType git_provider)
    /\ init_fields d !! "conversation_instructions"
       = Some (of_opt VStr conversation_instructions)
    /\ (forall name, per_call_field name = false ->
          init_fields d !! name = settings_dict settings !! name).
Proof.
  intros r Hload d Hd.
  assert (Hfields :
    init_fields d =
      with_overrides git_provider_tokens custom_secrets selected_repository
        selected_branch git_provider conversation_instructions
        (settings_dict settings)).
  { revert Hload d Hd. walk r.
    all: intros Hload; in_trace Hload.
    all: intros d
           [(u & cid & res & Hd) | (cs & cid & u & m & rj & res & Hex & Hd)].
    all: try (in_trace Hex); in_trace Hd.
    all: cbn [init_fields]; rewrite dict_merge_empty; reflexivity. }
  rewrite Hfields. apply lookup_with_overrides.
Qed.

(** X7. What is recorded is what is launched: when a call both writes
    metadata and reaches the launcher, the record holds the model of the
    data the launcher gets, the id the launcher gets and the user the
    launcher gets. *)
Theorem recorded_model_is_launched (attach_convo_id : bool)
    (conversation_id : option string) (s : St)
    (cs : ConversationStore) (md : ConversationMetadata) (saved : ExtErr + unit)
    (cid : string) (d : ConversationInitData) (u : option string)
    (m : option MessageAction) (rj : option string)
    (res : ExtErr + AgentLoopInfo) :
  let r := run h (create attach_convo_id conversation_id) s in
  In (E_save cs md saved) (trace r) ->
  In (E_launch cid d u m rj res) (trace r) ->
  md_llm_model md = attr d "llm_model"
  /\ md_conversation_id md = cid
  /\ md_user_id md = u.
Proof.
  intros r. walk r.
  all: intros Hsave; in_trace Hsave.
  all: intros Hlaunch; in_trace Hlaunch.
  all: repeat split; reflexivity.
Qed.

(** X8. Every collaborator is called for the user of the call: both
    stores are obtained for that user, and the assigner, the metadata
    record and the launcher get that user, None for an anonymous caller. *)
Theorem user_id_verbatim (attach_convo_id : bool)
    (conversation_id : option string) (s : St) :
  let r := run h (create attach_convo_id conversation_id) s in
  Forall (fun ev => forall u, user_of ev = Some u -> u = user_id) (trace r).
Proof.
  intros r. walk r. all: known_run.
  all: each_event ltac:(cbn [user_of md_user_id]; intros u Hu; congruence).
Qed.

(** X9. The key of an anonymous call: LLM_API_KEY when it is set and not
    empty, else OPENROUTER_API_KEY when it is set and not empty, else the
    mock key. The model is not treated alike: LLM_MODEL is taken as it is
    when set, the empty string included, and the fallback model is used only
    when the variable is not set. *)
Theorem anonymous_environment_precedence (attach_convo_id : bool)
    (conversation_id : option string) (s : St) (store : SettingsStore) :
  let r := run h (create attach_convo_id conversation_id) s in
  In (E_load store (inr None)) (trace r) ->
  forall d, resolved_data (trace r) d ->
    (forall k, env !! "LLM_API_KEY" = Some k -> k <> "" ->
       attr d "llm_api_key" = VSecretStr {| get_secret_value := k |})
    /\ (forall k,
          env !! "LLM_API_KEY" = None \/ env !! "LLM_API_KEY" = Some "" ->
          env !! "OPENROUTER_API_KEY" = Some k -> k <> "" ->
          attr d "llm_api_key" = VSecretStr {| get_secret_value := k |})
    /\ (env !! "LLM_API_KEY" = None \/ env !! "LLM_API_KEY" = Some "" ->
        env !! "OPENROUTER_API_KEY" = None
        \/ env !! "OPENROUTER_API_KEY" = Some "" ->
        attr d "llm_api_key"
        = VSecretStr {| get_secret_value := "mock-api-key-for-testing" |})
    /\ (forall model, env !! "LLM_MODEL" = Some model ->
          attr d "llm_model" = VStr model)
    /\ (env !! "LLM_MODEL" = None ->
        attr d "llm_model" = VStr "anthropic/claude-3-haiku-20240307").
Proof.
  intros r Hload d Hd. unfold attr.
  rewrite (anonymous_data_resolved attach_convo_id conversation_id s store
             Hload d Hd).
  clear Hd Hload r. unfold with_overrides, anonymous_defaults.
  repeat match goal with
         | |- _ /\ _ => split
         end.
  - intros k Hk Hne. lookup_dict. rewrite Hk.
    destruct k; [congruence | reflexivity].
  - intros k Hllm Hk Hne. lookup_dict. rewrite Hk.
    destruct k; [congruence|]. destruct Hllm as [-> | ->]; reflexivity.
  - intros Hllm Hopen. lookup_dict.
    destruct Hllm as [-> | ->], Hopen as [-> | ->]; reflexivity.
  - intros model Hmodel. lookup_dict. rewrite Hmodel. reflexivity.
  - intros Hmodel. lookup_dict. rewrite Hmodel. reflexivity.
Qed.

Section LawfulStore.
Context {V : Type} (store_of : St -> V) (holds : V -> string -> bool).
(** Only [save_metadata] changes the conversation store. *)
Hypothesis frame : forall c s,
  writes_metadata c = false -> store_of (snd (respond h c s)) = store_of s.
(** When the existence check answers, it says whether the store holds the
    id. *)
Hypothesis exists_law : forall cs cid s found,
  fst (respond h (conversation_store_exists cs cid) s) = inr found ->
  found = holds (store_of s) cid.
(** After a metadata write that returned, the store holds the id of the
    record. *)
Hypothesis save_law : forall cs md s,
  fst (respond h (conversation_store_save_metadata cs md) s) = inr tt ->
  holds (store_of (snd (respond h (conversation_store_save_metadata cs md) s)))
    (md_conversation_id md) = true.

(** A call that reached the launcher leaves its id in the store. *)
Lemma launched_id_is_held (attach_convo_id : bool) (cid : string) (s : St) :
  let r := run h (create attach_convo_id (Some cid)) s in
  existsb is_launch (trace r) = true ->
  holds (store_of (final r)) cid = true.
Proof.
  intros r. walk r.
  all: intros Hreached; known_run_in Hreached; try discriminate Hreached.
  all: clear Hreached; known_run.
  all: repeat match goal with
              | x : Resp (conversation_store_save_metadata _ _) |- _ =>
                  cbn [Resp] in x; destruct x
              end.
  all: try match goal with
       | E : respond _ (conversation_store_save_metadata ?cs ?md) ?a = _ |- _ =>
           let L := fresh "Hsaved" in
           pose proof (save_law cs md a) as L;
           rewrite E in L; cbn [fst snd md_conversation_id] in L;
           specialize (L eq_refl)
       end.
  all: try match goal with
       | E : respond _ (conversation_store_exists ?cs ?c) ?a = (inr true, _)
         |- _ =>
           let L := fresh "Hfound" in
           pose proof (exists_law cs c a true) as L;
           rewrite E in L; cbn [fst] in L; specialize (L eq_refl)
       end.
  all: repeat match goal with
              | E : respond _ (conversation_store_save_metadata _ _) _ = _
                |- _ => revert E
              end.
  all: frame_calls frame; intros; congruence.
Qed.

(** A call for an id the store holds creates nothing. *)
Lemma held_id_creates_nothing (attach_convo_id : bool) (cid : string) (s : St) :
  holds (store_of s) cid = true ->
  let r := run h (create attach_convo_id (Some cid)) s in
  forallb (fun ev => negb (is_creation ev)) (trace r) = true.
Proof.
  intros Hheld r. walk r.
  all: try match goal with
       | E : respond _ (conversation_store_exists ?cs ?c) ?a = (inr false, _)
         |- _ =>
           exfalso;
           let L := fresh "Hfound" in
           pose proof (exists_law cs c a false) as L;
           rewrite E in L; cbn [fst] in L; specialize (L eq_refl);
           clear E; frame_calls frame; congruence
       end.
  all: known_run; reflexivity.
Qed.

End LawfulStore.

(** X10. Creation is write-once across calls. On a store where only the
    metadata write changes what is held, where the existence check answers
    by what is held and where a write that returned made the id held: after
    a call with a supplied id that reached the launcher (whether the
    launcher then returned or raised), a second call with the same id, from
    the state the first left, invokes neither the variant assigner nor the
    metadata write. *)
Theorem second_call_creates_nothing {V : Type}
    (store_of : St -> V) (holds : V -> string -> bool)
    (first_attach second_attach : bool) (cid : string) (s : St) :
  (forall c s,
     writes_metadata c = false -> store_of (snd (respond h c s)) = store_of s) ->
  (forall cs cid s found,
     fst (respond h (conversation_store_exists cs cid) s) = inr found ->
     found = holds (store_of s) cid) ->
  (forall cs md s,
     fst (respond h (conversation_store_save_metadata cs md) s) = inr tt ->
     holds
       (store_of (snd (respond h (conversation_store_save_metadata cs md) s)))
       (md_conversation_id md) = true) ->
  let first := run h (create first_attach (Some cid)) s in
  existsb is_launch (trace first) = true ->
  let second := run h (create second_attach (Some cid)) (final first) in
  forallb (fun ev => negb (is_creation ev)) (trace second) = true.
Proof.
  intros frame exists_law save_law first Hreached second.
  apply (held_id_creates_nothing store_of holds frame exists_law).
  apply (launched_id_is_held store_of holds frame exists_law save_law).
  exact Hreached.
Qed.

End Properties.

(** ** The properties on the reference deployment *)

Section OnDemo.
Import Demo.

(** A call on the reference deployment: only the fields that vary. *)
Local Abbreviation demo_run w env user_id repository text images attach cid :=
  (run Demo.handler
     (create_new_conversation ∅ env user_id None None repository None
        text images None None "gui" attach None cid) w).

(** A property of such calls, from the theorem for all calls. *)
Local Abbreviation on_demo thm env user_id repository text images :=
  (thm Demo.handler ∅ env user_id None None repository None
     text images None None "gui" None).

Local Abbreviation blank := (Some {| get_secret_value := unicode_blank |}).
Local Abbreviation good := (Some {| get_secret_value := "sk-live" |}).

(** The event at a given place of a trace is in the trace. *)
Ltac at_index k := apply (nth_error_In _ k); vm_compute; reflexivity.

(** On the reference deployment only the metadata write changes the
    store. *)
Lemma demo_frame (c : Cmd) (w : World) :
  writes_metadata c = false ->
  Demo.store_of (snd (respond Demo.handler c w)) = Demo.store_of w.
Proof.
  intros Hc. destruct c; try discriminate Hc; cbn; try reflexivity.
  - destruct (uuids w); reflexivity.
  - destruct (store_down w); reflexivity.
Qed.

(** On the reference deployment conversation c1 stays in the store as long
    as the store is not written to. *)
Lemma demo_holds_c1 (cs : ConversationStore) (w : World) :
  Demo.store_of w = Demo.store_of (with_user good) ->
  fst (respond Demo.handler (conversation_store_exists cs "c1") w) = inr true.
Proof.
  unfold Demo.store_of. intros Hw. injection Hw as Hmeta Hdown.
  cbn in Hdown. cbn [respond Demo.handler answer].
  rewrite Hdown, Hmeta. vm_compute. reflexivity.
Qed.


(** A stored key that is one EM SPACE is whitespace only: the call of user
    u1 for the existing conversation c1 is refused at the gate. *)
Example em_space_key_is_refused :
  isspace em_space = true
  /\ outcome (demo_run (with_user (Some {| get_secret_value := em_space |}))
                ∅ (Some "u1") None None None false (Some "c1"))
     = inl authentication_failure.
Proof. split; vm_compute; reflexivity. Qed.

Lemma credential_gate_witness :
  let r := demo_run (with_user blank) ∅ (Some "u1") None None None false
             (Some "c1") in
  outcome r = inl authentication_failure
  /\ trace r =
     [E_log INFO Creating_conversation; E_log INFO Loading_settings;
      E_get_settings_store (Some "u1") (inr (Some "u1"));
      E_load (Some "u1") (inr (Some (settings_with_key blank)));
      E_log INFO Settings_loaded; E_log WARNING Missing_api_key].
Proof.
  intros r.
  refine (proj1 (on_demo credential_gate ∅ (Some "u1") None None None
                   false (Some "c1") (with_user blank) (Some "u1")
                   (settings_with_key blank) _) _).
  - at_index 3%nat.
  - vm_compute. reflexivity.
Defined.

(** C1, as stated, fails: an anonymous call in an environment whose
    LLM_API_KEY is one space launches the engine with that key. *)
Lemma blank_key_reaches_engine :
  ~ launched_with_usable_key
      (trace (demo_run fresh {[ "LLM_API_KEY" := " " ]} None None None None
                false None)).
Proof.
  intros Hinv.
  pose (d := {| init_fields :=
                  with_overrides None None None None None None
                    (settings_dict
                       (anonymous_defaults ∅ {[ "LLM_API_KEY" := " " ]})) |}).
  assert (Hkey : present_and_non_blank (attr d "llm_api_key") = true).
  { apply (Hinv "0123456789abcdef" d None None None (inr "0123456789abcdef")).
    unfold d. at_index 17%nat. }
  unfold d in Hkey. vm_compute in Hkey. discriminate Hkey.
Qed.

Lemma existing_id_is_not_recreated_witness :
  (let r := demo_run (with_user good) ∅ (Some "u1") None None None false
              (Some "c1") in
   forallb (fun ev => negb (is_creation ev)) (trace r) = true
   /\ Demo.store_of (final r) = Demo.store_of (with_user good))
  /\ (let runs :=
        run_many Demo.handler
          (create_new_conversation ∅ ∅ (Some "u1") None None None None
             None None None None "gui" false None (Some "c1"))
          3 (with_user good) in
      forallb (fun ev => negb (is_creation ev)) (snd runs) = true
      /\ Demo.store_of (fst runs) = Demo.store_of (with_user good)).
Proof.
  pose proof (on_demo existing_id_is_not_recreated ∅ (Some "u1") None None
                None Demo.store_of demo_frame) as [Honce Hmany].
  split.
  - intros r.
    destruct (Honce false (Some "c1") (with_user good) (Some "u1") "c1")
      as (Hnone & Hsame & _).
    + at_index 8%nat.
    + split; [exact Hnone | exact Hsame].
  - apply (Hmany false "c1" (with_user good)).
    intros cs w Hw. apply demo_holds_c1. exact Hw.
Defined.


Lemma new_conversation_records_assigned_model_witness :
  let r := demo_run (with_user good) ∅ (Some "u1") None None None false None in
  exists pre d0 res post,
    trace r =
      pre ++ E_exists (Some "u1") "0123456789abcdef" (inr false)
          :: E_log INFO New_conversation_ID
          :: E_variant (Some "u1") "0123456789abcdef" d0 res :: post
    /\ forallb (fun ev => negb (is_creation ev)) pre = true.
Proof.
  intros r.
  destruct (on_demo new_conversation_records_assigned_model ∅ (Some "u1")
              None None None false None (with_user good) (Some "u1")
              "0123456789abcdef")
    as (pre & d0 & res & post & Htrace & Hpre & _).
  - at_index 9%nat.
  - exists pre, d0, res, post. split; [exact Htrace | exact Hpre].
Defined.

(** On the reference deployment the experiment replaces the model, and
    the record written for the new conversation holds the replacement. *)
Example demo_records_experiment_model :
  let r := demo_run (with_user good) ∅ (Some "u1") None None None false None in
  md_llm_model <$> (metadata (final r) !! "0123456789abcdef")
  = Some (VStr "experiment/model").
Proof. vm_compute. reflexivity. Qed.

Lemma store_errors_abandon_creation_witness :
  let r := demo_run store_is_down ∅ None None None None false None in
  outcome r = inl (Propagated "store unavailable")
  /\ forallb (fun ev => negb (is_launch ev)) (trace r) = true.
Proof.
  intros r.
  apply (on_demo store_errors_abandon_creation ∅ None None None None
           false None store_is_down "store unavailable").
  left. exists None, "0123456789abcdef". at_index 11%nat.
Defined.

Lemma initial_message_construction_witness :
  let r := demo_run fresh ∅ None None (Some "hello") None false None in
  length (launched_messages (trace r)) = 1%nat
  /\ Forall (fun m => m = Some {| msg_content := "hello";
                                  msg_image_urls := [] |})
       (launched_messages (trace r)).
Proof.
  intros r.
  destruct (on_demo initial_message_construction ∅ None None
              (Some "hello") None false None fresh)
    as (_ & Hone & Hmsg).
  split.
  - apply (Hone "0123456789abcdef"). vm_compute. reflexivity.
  - apply List.Forall_forall. intros m Hm.
    apply (proj2 (Hmsg m Hm)). left. discriminate.
Defined.


Lemma gate_precedes_existence_check_witness :
  let r := demo_run (with_user blank) ∅ (Some "u1") None None None false
             (Some "c1") in
  metadata (with_user blank) !! "c1" = Some (some_metadata "c1")
  /\ outcome r = inl authentication_failure
  /\ forallb (fun ev => negb (is_exists ev || is_creation ev || is_launch ev))
       (trace r) = true.
Proof.
  intros r. split; [vm_compute; reflexivity|].
  apply (on_demo gate_precedes_existence_check ∅ (Some "u1") None None None
           false "c1" (with_user blank) (Some "u1") (settings_with_key blank)).
  - at_index 3%nat.
  - vm_compute. reflexivity.
Defined.

Lemma image_only_message_witness :
  let r := demo_run fresh ∅ None None None (Some ["shot.png"]) false None in
  launched_messages (trace r) <> []
  /\ Forall (fun m => m = Some {| msg_content := "";
                                  msg_image_urls := ["shot.png"] |})
       (launched_messages (trace r)).
Proof.
  intros r.
  destruct (on_demo image_only_message ∅ None None None (Some ["shot.png"])
              false None fresh "shot.png" [])
    as (Hsome & Hmsg).
  - reflexivity.
  - left. reflexivity.
  - split.
    + apply (Hsome "0123456789abcdef"). vm_compute. reflexivity.
    + apply List.Forall_forall. exact Hmsg.
Defined.

(** On the reference deployment the existence check, when it answers, says
    whether the store holds the id, and a metadata write makes its id
    held. *)
Lemma demo_exists_law (cs : ConversationStore) (cid : string) (w : World)
    (found : bool) :
  fst (respond Demo.handler (conversation_store_exists cs cid) w) = inr found ->
  found = holds (Demo.store_of w) cid.
Proof.
  cbn [respond Demo.handler answer]. destruct (store_down w); cbn [fst].
  - discriminate.
  - intros Hfound. injection Hfound as <-. reflexivity.
Qed.

Lemma demo_save_law (cs : ConversationStore) (md : ConversationMetadata)
    (w : World) :
  fst (respond Demo.handler (conversation_store_save_metadata cs md) w)
  = inr tt ->
  holds
    (Demo.store_of
       (snd (respond Demo.handler (conversation_store_save_metadata cs md) w)))
    (md_conversation_id md) = true.
Proof.
  intros _. cbn [respond Demo.handler answer snd].
  unfold holds, Demo.store_of. cbn [fst metadata].
  rewrite lookup_insert_eq. apply bool_decide_eq_true. eexists. reflexivity.
Qed.

Lemma launch_failure_keeps_metadata_witness :
  let r :=
    run Demo.handler_engine_down
      (create_new_conversation ∅ ∅ None None None None None None None None
         None "gui" false None None) fresh in
  outcome r = inl (Propagated "engine unavailable")
  /\ exists md, In (E_save None md (inr tt)) (trace r)
                /\ md_conversation_id md = "0123456789abcdef".
Proof.
  intros r.
  destruct (launch_failure_keeps_metadata Demo.handler_engine_down ∅ ∅ None
              None None None None None None None None "gui" None false None
              fresh "engine unavailable" "0123456789abcdef"
              {| init_fields :=
                   with_overrides None None None None None None
                     (settings_dict (anonymous_defaults ∅ ∅)) |}
              None None None) as [Hout Hmd].
  - at_index 17%nat.
  - split; [exact Hout|]. apply (Hmd None). at_index 11%nat.
Defined.

Lemma stored_settings_with_overrides_witness :
  let r := demo_run (with_user good) ∅ (Some "u1") (Some "org/repo") None
             None false (Some "c1") in
  let d := {| init_fields :=
                with_overrides None None (Some "org/repo") None None None
                  (settings_dict (settings_with_key good)) |} in
  resolved_data (trace r) d
  /\ init_fields d !! "selected_repository" = Some (VStr "org/repo")
  /\ init_fields d !! "selected_branch" = Some VNone
  /\ init_fields d !! "llm_model"
     = settings_dict (settings_with_key good) !! "llm_model".
Proof.
  intros r d.
  assert (Hd : resolved_data (trace r) d).
  { right. exists (Some "u1"), "c1", (Some "u1"), None, None, (inr "c1").
    split; [at_index 8%nat | unfold d; at_index 10%nat]. }
  split; [exact Hd|].
  destruct (on_demo stored_settings_with_overrides ∅ (Some "u1")
              (Some "org/repo") None None false (Some "c1") (with_user good)
              (Some "u1") (settings_with_key good))
    with (d := d) as (_ & _ & Hrepo & Hbranch & _ & _ & Hother).
  - at_index 3%nat.
  - exact Hd.
  - split; [exact Hrepo|]. split; [exact Hbranch|].
    apply Hother. vm_compute. reflexivity.
Defined.

Lemma recorded_model_is_launched_witness :
  let r := demo_run (with_user good) ∅ (Some "u1") None None None false None in
  let md :=
    {| md_trigger := "gui"; md_conversation_id := "0123456789abcdef";
       md_title := "Conversation 01234"; md_user_id := Some "u1";
       md_selected_repository := None; md_selected_branch := None;
       md_git_provider := None; md_llm_model := VStr "experiment/model" |} in
  let d :=
    {| init_fields :=
         <["llm_model" := VStr "experiment/model"]>
           (with_overrides None None None None None None
              (settings_dict (settings_with_key good))) |} in
  In (E_save (Some "u1") md (inr tt)) (trace r)
  /\ In (E_launch "0123456789abcdef" d (Some "u1") None None
           (inr "0123456789abcdef")) (trace r)
  /\ VStr "experiment/model" = attr d "llm_model".
Proof.
  intros r md d.
  assert (Hsave : In (E_save (Some "u1") md (inr tt)) (trace r))
    by (unfold md; at_index 13%nat).
  assert (Hlaunch : In (E_launch "0123456789abcdef" d (Some "u1") None None
                          (inr "0123456789abcdef")) (trace r))
    by (unfold d; at_index 15%nat).
  split; [exact Hsave|]. split; [exact Hlaunch|].
  exact (proj1 (on_demo recorded_model_is_launched ∅ (Some "u1") None None
                  None false None (with_user good) (Some "u1") md (inr tt)
                  "0123456789abcdef" d (Some "u1") None None
                  (inr "0123456789abcdef") Hsave Hlaunch)).
Defined.

Lemma anonymous_environment_precedence_witness :
  let env : gmap string string :=
    {[ "LLM_API_KEY" := ""; "OPENROUTER_API_KEY" := "or-key";
       "LLM_MODEL" := "" ]} in
  let r := demo_run fresh env None None None None false None in
  let d := {| init_fields :=
                with_overrides None None None None None None
                  (settings_dict (anonymous_defaults ∅ env)) |} in
  resolved_data (trace r) d
  /\ attr d "llm_api_key" = VSecretStr {| get_secret_value := "or-key" |}
  /\ attr d "llm_model" = VStr "".
Proof.
  intros env r d.
  assert (Hd : resolved_data (trace r) d).
  { left. exists None, "0123456789abcdef", (inr d).
    unfold d, env. at_index 13%nat. }
  split; [exact Hd|].
  destruct (on_demo anonymous_environment_precedence env None None None None
              false None fresh None)
    with (d := d) as (_ & Hopen & _ & Hmodel & _).
  - unfold env. at_index 3%nat.
  - exact Hd.
  - split.
    + apply Hopen; [right | | discriminate]; vm_compute; reflexivity.
    + apply Hmodel. vm_compute. reflexivity.
Defined.

Lemma second_call_creates_nothing_witness :
  let call :=
    create_new_conversation ∅ ∅ (Some "u1") None None None None None None
      None None "gui" false None (Some "session-7") in
  let first := run Demo.handler call (with_user good) in
  let second := run Demo.handler call (final first) in
  existsb is_creation (trace first) = true
  /\ forallb (fun ev => negb (is_creation ev)) (trace second) = true.
Proof.
  intros call first second. split; [vm_compute; reflexivity|].
  apply (on_demo second_call_creates_nothing ∅ (Some "u1") None None None
           Demo.store_of holds false false "session-7" (with_user good)
           demo_frame demo_exists_law demo_save_law).
  vm_compute. reflexivity.
Defined.

End OnDemo.
